(** * The sample weather MCP service, embedded and verified

    A shallow embedding of [src/sample_mcp_service/server.py]: the pydantic
    request models with their field constraints, the three tool handlers
    ([health], [get_weather], [get_air_quality]) and the hand-written tool
    definition exporter ([generate_tool_definitions]).

    Python values are an inductive type; a [dict] is an association list in
    insertion order; Python [float]s are IEEE binary64 numbers (Rocq's
    primitive floats); [int]s are unbounded ([Z]).  Handler code runs in a
    small monad that threads the log and may raise, so that the
    [try]/[except] of the handlers is modelled as written.  The way
    pydantic reads text as an integer is a parameter of the validators.

    The response models [ForecastDay] and [WeatherResponse] are declared in
    the source but the handlers return plain dicts, which is what is
    embedded; the start-up code that writes [tool_definitions.json] and
    starts the server is left out. *)

From Stdlib Require Import ZArith List String Ascii Bool Lia.
From Stdlib Require Import Floats DecimalString.
Import ListNotations.

Set Warnings "-inexact-float,-register-all".

Open Scope string_scope.
Open Scope list_scope.
Open Scope Z_scope.

(** ** Python values *)

Inductive value : Type :=
| VNone
| VBool (b : bool)
| VInt (z : Z)
| VFloat (f : float)
| VStr (s : string)
| VList (l : list value)
| VDict (d : list (string * value)).

(** A [dict] with string keys, in insertion order. *)
Definition dict : Type := list (string * value).

Fixpoint dict_get (k : string) (d : dict) : option value :=
  match d with
  | [] => None
  | (k', v) :: d' => if String.eqb k k' then Some v else dict_get k d'
  end.

Definition dict_keys (d : dict) : list string := map fst d.

(** [d] without the entries whose key is in [ks]. *)
Definition dict_without (ks : list string) (d : dict) : dict :=
  filter (fun kv => negb (existsb (String.eqb (fst kv)) ks)) d.

(** ** Python primitives used by the handlers *)

(** [str(n)] and [f"{n}"] for an [int]. *)
Definition str_int (n : Z) : string := NilEmpty.string_of_int (Z.to_int n).

(** [range(n)]: empty when [n <= 0]. *)
Definition range (n : Z) : list Z := map Z.of_nat (seq 0 (Z.to_nat n)).

(** [x or y] where [x : Optional[str]]: [None] and the empty string are
    falsy. *)
Definition py_or (x : option string) (y : string) : string :=
  match x with
  | None => y
  | Some s => if String.eqb s "" then y else s
  end.

(** Exceptions carry their class name and [str(e)]. *)
Record PyExc : Type := mkExc { exc_type : string; exc_str : string }.

Inductive outcome (A : Type) : Type :=
| Return (a : A)
| Raise (e : PyExc).
Arguments Return {A} a.
Arguments Raise {A} e.

(** Records written by [logger]. *)
Inductive LogLevel : Type := INFO | ERROR.
Definition LogRecord : Type := (LogLevel * string)%type.

(** The handler monad: the log is threaded, a computation returns or
    raises. *)
Definition M (A : Type) : Type := list LogRecord -> outcome A * list LogRecord.

Definition ret {A} (a : A) : M A := fun log => (Return a, log).

Definition raise {A} (e : PyExc) : M A := fun log => (Raise e, log).

Definition bind {A B} (m : M A) (k : A -> M B) : M B :=
  fun log =>
    match m log with
    | (Return a, log') => k a log'
    | (Raise e, log') => (Raise e, log')
    end.

Notation "x <- m ;; k" := (bind m (fun x => k))
  (at level 61, m at next level, right associativity).
Notation "m ;;; k" := (bind m (fun _ => k))
  (at level 61, right associativity).

Definition fmap {A B} (f : A -> B) (m : M A) : M B := x <- m ;; ret (f x).

(** [try: body except Exception as e: handler(e)]. *)
Definition try_except {A} (body : M A) (handler : PyExc -> M A) : M A :=
  fun log =>
    match body log with
    | (Return a, log') => (Return a, log')
    | (Raise e, log') => handler e log'
    end.

Definition logger_info (msg : string) : M unit :=
  fun log => (Return tt, log ++ [(INFO, msg)]).

(** [logger.exception] logs at level ERROR. *)
Definition logger_exception (msg : string) : M unit :=
  fun log => (Return tt, log ++ [(ERROR, msg)]).

(** The binary64 number nearest to an integer (infinite when the integer
    is out of range). *)
Definition float_of_Z (n : Z) : float :=
  SF2Prim (binary_normalize prec emax n 0 false).

(** Conversion of an [int] operand in mixed [int]/[float] arithmetic:
    [OverflowError] when the integer is out of the range of [float]. *)
Definition float_of_int (n : Z) : M float :=
  let f := float_of_Z n in
  if is_infinity f
  then raise (mkExc "OverflowError" "int too large to convert to float")
  else ret f.

(** [n * x] and [n + x] for [n : int], [x : float]. *)
Definition int_mul_float (n : Z) (x : float) : M float :=
  f <- float_of_int n ;; ret (f * x)%float.

Definition int_add_float (n : Z) (x : float) : M float :=
  f <- float_of_int n ;; ret (f + x)%float.

(** ** Validation (pydantic models) *)

(** The [type] of a pydantic error. *)
Inductive error_type : Type :=
| missing
| string_type
| int_type
| int_parsing
| int_parsing_size
| int_from_float
| finite_number
| greater_than_equal (bound : Z)
| less_than_equal (bound : Z).

(** One line of a [ValidationError]: the field it names and the failed
    constraint. *)
Record ErrorDetails : Type := mkErr { loc : string; type : error_type }.

Inductive validated (A : Type) : Type :=
| Ok (a : A)
| ValidationError (errors : list ErrorDetails).
Arguments Ok {A} a.
Arguments ValidationError {A} errors.

(** The annotations that occur in the request models. *)
Inductive annotation : Type := Str | OptionalStr | Int.

Definition py_type (a : annotation) : Type :=
  match a with
  | Str => string
  | OptionalStr => option string
  | Int => Z
  end.

(** [Field(default, ge=.., le=..)]; [default = None] stands for the
    ellipsis of a required field. *)
Record FieldInfo : Type := mkField {
  name : string;
  ann : annotation;
  default : option (py_type ann);
  ge : option Z;
  le : option Z
}.

Definition is_required (f : FieldInfo) : bool :=
  match default f with
  | None => true
  | Some _ => false
  end.

Definition required_fields (fs : list FieldInfo) : list string :=
  map name (filter is_required fs).

(** *** The [int] validator

    The models set no [strict] flag, so pydantic validates in its default
    (lax) mode: an [int] field takes an integer as it is and converts a
    boolean, a number without fractional part and text that spells an
    integer.  How text is read is the library's business: the validators
    take that conversion as a parameter, [str_as_int], and the theorems hold
    for every such conversion.  [lax_str_as_int] below is the conversion
    used where a concrete one is needed. *)

Definition is_digit (c : ascii) : bool :=
  let n := Z.of_nat (nat_of_ascii c) in (48 <=? n) && (n <=? 57).

Definition digit_value (c : ascii) : Z := Z.of_nat (nat_of_ascii c) - 48.

(** Blanks: space, tab, line feed, vertical tab, form feed, carriage
    return. *)
Definition is_space (c : ascii) : bool :=
  let n := Z.of_nat (nat_of_ascii c) in (n =? 32) || ((9 <=? n) && (n <=? 13)).

Fixpoint lstrip (s : string) : string :=
  match s with
  | EmptyString => EmptyString
  | String c s' => if is_space c then lstrip s' else s
  end.

Fixpoint rstrip (s : string) : string :=
  match s with
  | EmptyString => EmptyString
  | String c s' =>
      match rstrip s' with
      | EmptyString => if is_space c then EmptyString else String c EmptyString
      | r => String c r
      end
  end.

Definition trim (s : string) : string := rstrip (lstrip s).

(** The digits that follow a first digit; an underscore may stand between
    two digits. *)
Fixpoint digits_value (acc : Z) (s : string) : option Z :=
  match s with
  | EmptyString => Some acc
  | String c s' =>
      if is_digit c then digits_value (10 * acc + digit_value c) s'
      else if Ascii.eqb c "_" then
        match s' with
        | String d s'' =>
            if is_digit d then digits_value (10 * acc + digit_value d) s''
            else None
        | EmptyString => None
        end
      else None
  end.

Definition unsigned_as_int (s : string) : option Z :=
  match s with
  | String c s' => if is_digit c then digits_value (digit_value c) s' else None
  | EmptyString => None
  end.

Definition signed_as_int (s : string) : option Z :=
  match s with
  | String "-" s' => option_map Z.opp (unsigned_as_int s')
  | String "+" s' => unsigned_as_int s'
  | _ => unsigned_as_int s
  end.

Fixpoint all_zeros (s : string) : bool :=
  match s with
  | EmptyString => true
  | String c s' => Ascii.eqb c "0" && all_zeros s'
  end.

(** The text before a point that only zeros follow. *)
Fixpoint strip_decimal_zeros (s : string) : option string :=
  match s with
  | EmptyString => None
  | String c s' =>
      if Ascii.eqb c "."
      then if all_zeros s' then Some EmptyString else None
      else option_map (String c) (strip_decimal_zeros s')
  end.

(** Text read as an integer: blanks around it are dropped; a sign, digits
    with single underscores between them and a fraction of zeros are
    taken; text of more than 4300 characters is refused for its size. *)
Definition lax_str_as_int (s : string) : Z + error_type :=
  let t := trim s in
  if (4300 <? Z.of_nat (String.length t)) then inr int_parsing_size
  else
    match signed_as_int t with
    | Some z => inl z
    | None =>
        match strip_decimal_zeros t with
        | Some t' =>
            match signed_as_int t' with
            | Some z => inl z
            | None => inr int_parsing
            end
        | None => inr int_parsing
        end
    end.

(** An integral float is taken when it fits 64 bits. *)
Definition float_as_int (f : float) : Z + error_type :=
  match Prim2SF f with
  | S754_nan | S754_infinity _ => inr finite_number
  | S754_zero _ => inl 0
  | S754_finite s m e =>
      let sign := if s then (-1) else 1 in
      let fits z :=
        if (- 2 ^ 63 <? z) && (z <? 2 ^ 63) then inl z
        else inr int_parsing_size in
      if 0 <=? e then fits (sign * (Zpos m * 2 ^ e))
      else if Zpos m mod 2 ^ (- e) =? 0 then fits (sign * (Zpos m / 2 ^ (- e)))
      else inr int_from_float
  end.

Definition int_validator (str_as_int : string -> Z + error_type) (v : value)
  : Z + error_type :=
  match v with
  | VInt z => inl z
  | VBool b => inl (if b then 1 else 0)
  | VFloat f => float_as_int f
  | VStr s => str_as_int s
  | VNone | VList _ | VDict _ => inr int_type
  end.

(** [ge] and [le]: an integer out of bounds is an error, never adjusted. *)
Definition check_bounds (lo hi : option Z) (z : Z) : Z + error_type :=
  match lo with
  | Some b => if z <? b then inr (greater_than_equal b) else
      match hi with
      | Some c => if c <? z then inr (less_than_equal c) else inl z
      | None => inl z
      end
  | None =>
      match hi with
      | Some c => if c <? z then inr (less_than_equal c) else inl z
      | None => inl z
      end
  end.

Definition validate_value (str_as_int : string -> Z + error_type)
  (a : annotation) (lo hi : option Z) (v : value)
  : py_type a + error_type :=
  match a return py_type a + error_type with
  | Str =>
      match v with
      | VStr s => inl s
      | _ => inr string_type
      end
  | OptionalStr =>
      match v with
      | VNone => inl None
      | VStr s => inl (Some s)
      | _ => inr string_type
      end
  | Int =>
      match int_validator str_as_int v with
      | inl z => check_bounds lo hi z
      | inr e => inr e
      end
  end.

(** A field of the raw payload: absent, it takes its default or is reported
    [missing]; present, its value is validated. *)
Definition validate_field (str_as_int : string -> Z + error_type)
  (f : FieldInfo) (data : dict)
  : validated (py_type (ann f)) :=
  match dict_get (name f) data with
  | None =>
      match default f with
      | Some d => Ok d
      | None => ValidationError [mkErr (name f) missing]
      end
  | Some v =>
      match validate_value str_as_int (ann f) (ge f) (le f) v with
      | inl a => Ok a
      | inr e => ValidationError [mkErr (name f) e]
      end
  end.

Definition errors_of {A} (r : validated A) : list ErrorDetails :=
  match r with
  | Ok _ => []
  | ValidationError es => es
  end.

(** Fields are validated one after the other and all errors are reported. *)
Definition ap {A B} (rf : validated (A -> B)) (ra : validated A) : validated B :=
  match rf, ra with
  | Ok f, Ok a => Ok (f a)
  | _, _ => ValidationError (errors_of rf ++ errors_of ra)
  end.

Notation "rf <*> ra" := (ap rf ra) (at level 40, left associativity).

(** *** The request models *)

Module WeatherRequest.

Record t : Type := mk {
  city : string;
  country_code : option string;
  days : Z;
  api_key : option string
}.

Definition city_field : FieldInfo := mkField "city" Str None None None.
Definition country_code_field : FieldInfo :=
  mkField "country_code" OptionalStr (Some None) None None.
Definition days_field : FieldInfo := mkField "days" Int (Some 3) (Some 1) (Some 7).
Definition api_key_field : FieldInfo :=
  mkField "api_key" OptionalStr (Some None) None None.

Definition model_fields : list FieldInfo :=
  [city_field; country_code_field; days_field; api_key_field].

Definition model_validate (str_as_int : string -> Z + error_type)
  (data : dict) : validated t :=
  Ok mk <*> validate_field str_as_int city_field data
        <*> validate_field str_as_int country_code_field data
        <*> validate_field str_as_int days_field data
        <*> validate_field str_as_int api_key_field data.

End WeatherRequest.

Module AirQualityRequest.

Record t : Type := mk {
  city : string;
  country_code : option string;
  api_key : option string
}.

Definition city_field : FieldInfo := mkField "city" Str None None None.
Definition country_code_field : FieldInfo :=
  mkField "country_code" OptionalStr (Some None) None None.
Definition api_key_field : FieldInfo :=
  mkField "api_key" OptionalStr (Some None) None None.

Definition model_fields : list FieldInfo :=
  [city_field; country_code_field; api_key_field].

Definition model_validate (str_as_int : string -> Z + error_type)
  (data : dict) : validated t :=
  Ok mk <*> validate_field str_as_int city_field data
        <*> validate_field str_as_int country_code_field data
        <*> validate_field str_as_int api_key_field data.

End AirQualityRequest.

(** ** The service *)

Section Service.

(** [os.environ], read once when the module is loaded. *)
Variable environ : string -> option string.

Definition DEFAULT_WEATHER_API_KEY : string :=
  match environ "WEATHER_API_KEY" with
  | Some k => k
  | None => "demo_api_key"
  end.

Definition health (_ : unit) : M dict :=
  ret [("status", VStr "ok")].

(** The body of the [for] loop of [get_weather]: the entry appended for
    index [i]. *)
Definition forecast_entry (i : Z) : M value :=
  a <- int_mul_float i 0.5 ;;
  min_temp <- int_add_float 18 a ;;
  b <- int_mul_float i 0.7 ;;
  max_temp <- int_add_float 25 b ;;
  ret (VDict [("date", VStr ("2025-05-" ++ str_int (27 + i)));
              ("min_temp", VFloat min_temp);
              ("max_temp", VFloat max_temp);
              ("condition", VStr (if i mod 2 =? 0 then "Sunny" else "Cloudy"))]).

(** [for i in range(..): forecast_days.append(..)]. *)
Fixpoint for_append (indices : list Z) (forecast_days : list value)
  : M (list value) :=
  match indices with
  | [] => ret forecast_days
  | i :: rest =>
      entry <- forecast_entry i ;;
      for_append rest (forecast_days ++ [entry])
  end.

(** The [try] block of [get_weather]; returned with the result is the value
    bound to the local [api_key]. *)
Definition get_weather_try (request : WeatherRequest.t) : M (string * dict) :=
  let api_key := py_or (WeatherRequest.api_key request) DEFAULT_WEATHER_API_KEY in
  forecast_days <- for_append (range (WeatherRequest.days request)) [] ;;
  let result :=
    [("city", VStr (WeatherRequest.city request));
     ("country", VStr (py_or (WeatherRequest.country_code request) "US"));
     ("current_temp", VFloat 23.5);
     ("current_condition", VStr "Sunny");
     ("forecast", VList forecast_days)] in
  logger_info ("Weather data retrieved successfully for "
               ++ WeatherRequest.city request) ;;;
  ret (api_key, result).

Definition error_payload (e : PyExc) : dict := [("error", VStr (exc_str e))].

Definition get_weather (request : WeatherRequest.t) : M dict :=
  logger_info ("Weather request for city: " ++ WeatherRequest.city request
               ++ ", days: " ++ str_int (WeatherRequest.days request)) ;;;
  try_except
    (fmap snd (get_weather_try request))
    (fun e =>
       logger_exception "Error retrieving weather data" ;;;
       ret (error_payload e)).

(** The [try] block of [get_air_quality], with the local [api_key]. *)
Definition get_air_quality_try (request : AirQualityRequest.t)
  : M (string * dict) :=
  let api_key := py_or (AirQualityRequest.api_key request) DEFAULT_WEATHER_API_KEY in
  let result :=
    [("city", VStr (AirQualityRequest.city request));
     ("country", VStr (py_or (AirQualityRequest.country_code request) "US"));
     ("aqi", VInt 45);
     ("quality_level", VStr "Good");
     ("pollutants", VDict [("pm2_5", VFloat 12.5);
                           ("pm10", VFloat 25.3);
                           ("o3", VFloat 68.2);
                           ("no2", VFloat 15.7);
                           ("so2", VFloat 5.2);
                           ("co", VFloat 0.8)]);
     ("health_recommendations",
      VStr "Air quality is good. Suitable for outdoor activities.")] in
  logger_info ("Air quality data retrieved successfully for "
               ++ AirQualityRequest.city request) ;;;
  ret (api_key, result).

Definition get_air_quality (request : AirQualityRequest.t) : M dict :=
  logger_info ("Air quality request for city: "
               ++ AirQualityRequest.city request) ;;;
  try_except
    (fmap snd (get_air_quality_try request))
    (fun e =>
       logger_exception "Error retrieving air quality data" ;;;
       ret (error_payload e)).

(** *** Dispatch of a tool call

    Both tools take one parameter, [request].  The runtime validates the
    raw value given for it, a JSON object, against the request model and
    runs the handler on the validated request only; [data] below is that
    raw value. *)

Inductive call_result : Type :=
| Rejected (errors : list ErrorDetails)
| Handled (result : outcome dict) (log : list LogRecord).

Definition call_tool {A} (model_validate : dict -> validated A)
  (handler : A -> M dict) (data : dict) (log : list LogRecord)
  : call_result :=
  match model_validate data with
  | ValidationError errors => Rejected errors
  | Ok request => let (r, log') := handler request log in Handled r log'
  end.

Definition call_get_weather (str_as_int : string -> Z + error_type)
  : dict -> list LogRecord -> call_result :=
  call_tool (WeatherRequest.model_validate str_as_int) get_weather.

Definition call_get_air_quality (str_as_int : string -> Z + error_type)
  : dict -> list LogRecord -> call_result :=
  call_tool (AirQualityRequest.model_validate str_as_int) get_air_quality.

End Service.

(** ** The tool definition exporter *)

Definition generate_tool_definitions : list value :=
  let tools :=
    [ VDict
        [("name", VStr "health");
         ("description", VStr "Service status check");
         ("parameters", VDict
            [("type", VStr "object");
             ("properties", VDict []);
             ("required", VList [])])];
      VDict
        [("name", VStr "get_weather");
         ("description",
          VStr "Provides current weather and forecast for a specific city.");
         ("parameters", VDict
            [("type", VStr "object");
             ("properties", VDict
                [("city", VDict
                    [("type", VStr "string");
                     ("description", VStr "City name to check the weather for")]);
                 ("country_code", VDict
                    [("type", VStr "string");
                     ("description", VStr "Country code (e.g., 'US', 'UK')")]);
                 ("days", VDict
                    [("type", VStr "integer");
                     ("description", VStr "Number of days for the forecast");
                     ("default", VInt 3);
                     ("minimum", VInt 1);
                     ("maximum", VInt 7)]);
                 ("api_key", VDict
                    [("type", VStr "string");
                     ("description",
                      VStr "Weather API key (uses default if not provided)")])]);
             ("required", VList [VStr "city"])])];
      VDict
        [("name", VStr "get_air_quality");
         ("description",
          VStr "Provides air quality information for a specific city.");
         ("parameters", VDict
            [("type", VStr "object");
             ("properties", VDict
                [("city", VDict
                    [("type", VStr "string");
                     ("description", VStr "City name to check air quality for")]);
                 ("country_code", VDict
                    [("type", VStr "string");
                     ("description", VStr "Country code (e.g., 'US', 'UK')")]);
                 ("api_key", VDict
                    [("type", VStr "string");
                     ("description",
                      VStr "Air quality API key (uses default if not provided)")])]);
             ("required", VList [VStr "city"])])] ] in
  tools.

Definition get_tool_definitions (_ : unit) : M dict :=
  ret [("tools", VList generate_tool_definitions)].

(** Access paths into a tool definition. *)
Definition get_path (v : value) (k : string) : option value :=
  match v with
  | VDict d => dict_get k d
  | _ => None
  end.

Definition tool_name (tool : value) : option value := get_path tool "name".

Definition tool_required (tool : value) : option value :=
  match get_path tool "parameters" with
  | Some ps => get_path ps "required"
  | None => None
  end.

Definition tool_property (tool : value) (field key : string) : option value :=
  match get_path tool "parameters" with
  | Some ps =>
      match get_path ps "properties" with
      | Some props =>
          match get_path props field with
          | Some p => get_path p key
          | None => None
          end
      | None => None
      end
  | None => None
  end.

(** The fields the validator checks for each registered tool: [health]
    takes no argument, the other two take their request model. *)
Definition input_fields (tool : string) : option (list FieldInfo) :=
  if String.eqb tool "health" then Some []
  else if String.eqb tool "get_weather" then Some WeatherRequest.model_fields
  else if String.eqb tool "get_air_quality" then Some AirQualityRequest.model_fields
  else None.

(** ** What the handlers are expected to return *)

(** The forecast entry of index [i], as the specification describes it. *)
Definition forecast_day (i : Z) : value :=
  VDict [("date", VStr ("2025-05-" ++ str_int (27 + i)));
         ("min_temp", VFloat (18 + 0.5 * float_of_Z i));
         ("max_temp", VFloat (25 + 0.7 * float_of_Z i));
         ("condition", VStr (if Z.even i then "Sunny" else "Cloudy"))].

(** The success payload of [get_weather], as the specification describes
    it, with the country the handler computes. *)
Definition weather_payload (request : WeatherRequest.t) : dict :=
  [("city", VStr (WeatherRequest.city request));
   ("country", VStr (py_or (WeatherRequest.country_code request) "US"));
   ("current_temp", VFloat 23.5);
   ("current_condition", VStr "Sunny");
   ("forecast", VList (map forecast_day (range (WeatherRequest.days request))))].

(** The part of the air quality payload that does not depend on the
    request. *)
Definition air_quality_constants : dict :=
  [("aqi", VInt 45);
   ("quality_level", VStr "Good");
   ("pollutants", VDict [("pm2_5", VFloat 12.5);
                         ("pm10", VFloat 25.3);
                         ("o3", VFloat 68.2);
                         ("no2", VFloat 15.7);
                         ("so2", VFloat 5.2);
                         ("co", VFloat 0.8)]);
   ("health_recommendations",
    VStr "Air quality is good. Suitable for outdoor activities.")].

Definition find_tool (n : string) (tools : list value) : option value :=
  find (fun tool =>
          match tool_name tool with
          | Some (VStr m) => String.eqb m n
          | _ => false
          end) tools.

(** A request model's constraint on days holds. *)
Definition days_in_range (request : WeatherRequest.t) : Prop :=
  1 <= WeatherRequest.days request <= 7.

(** The records a successful run of each handler adds to the log. *)
Definition weather_log (request : WeatherRequest.t) : list LogRecord :=
  [(INFO, ("Weather request for city: " ++ WeatherRequest.city request
          ++ ", days: " ++ str_int (WeatherRequest.days request))%string);
   (INFO, ("Weather data retrieved successfully for "
          ++ WeatherRequest.city request)%string)].

Definition air_quality_log (request : AirQualityRequest.t) : list LogRecord :=
  [(INFO, ("Air quality request for city: "
          ++ AirQualityRequest.city request)%string);
   (INFO, ("Air quality data retrieved successfully for "
          ++ AirQualityRequest.city request)%string)].

(** ** Observations and sample inputs *)

(** The value of [key] in the payload a call handed back, if its handler
    ran and returned. *)
Definition returned_field (key : string) (r : call_result) : option value :=
  match r with
  | Handled (Return payload) _ => dict_get key payload
  | _ => None
  end.

Definition was_rejected (r : call_result) : bool :=
  match r with
  | Rejected _ => true
  | Handled _ _ => false
  end.

(** The field [key] of the payload a handler returned. *)
Definition payload_field (key : string) (r : outcome dict * list LogRecord)
  : option value :=
  match fst r with
  | Return payload => dict_get key payload
  | Raise _ => None
  end.

(** Sample environments, requests and payloads. *)
Definition no_environ : string -> option string := fun _ => None.

Definition seoul_two_days : WeatherRequest.t :=
  WeatherRequest.mk "Seoul" None 2 None.

Definition seoul_week : WeatherRequest.t :=
  WeatherRequest.mk "Seoul" (Some "KR") 7 (Some "k-123").

Definition empty_country_weather : WeatherRequest.t :=
  WeatherRequest.mk "Seoul" (Some "") 3 (Some "").

Definition empty_country_air : AirQualityRequest.t :=
  AirQualityRequest.mk "Paris" (Some "") (Some "").

Definition days_eight : dict := [("city", VStr "X"); ("days", VInt 8)].

Definition days_as_text : dict := [("city", VStr "X"); ("days", VStr "3")].

Definition empty_city : dict := [("city", VStr "")].

Definition no_city : dict := [("days", VInt 2)].

(** ** The declared response models and further observations *)

(** The annotations of the response models: text, a float, a list of
    records of a model. *)
Inductive response_type : Type :=
| RStr
| RFloat
| RList (model : list (string * response_type)).

(** [ForecastDay] and [WeatherResponse], as the source declares them; all
    their fields are required. *)
Definition ForecastDay_fields : list (string * response_type) :=
  [("date", RStr); ("min_temp", RFloat); ("max_temp", RFloat);
   ("condition", RStr)].

Definition WeatherResponse_fields : list (string * response_type) :=
  [("city", RStr); ("country", RStr); ("current_temp", RFloat);
   ("current_condition", RStr); ("forecast", RList ForecastDay_fields)].

(** A value has the annotated type; a [float] field also takes an
    integer. *)
Fixpoint has_type (t : response_type) (v : value) : bool :=
  match t, v with
  | RStr, VStr _ => true
  | RFloat, (VFloat _ | VInt _) => true
  | RList model, VList items =>
      forallb (fun item =>
                 match item with
                 | VDict d =>
                     forallb (fun kt =>
                                match dict_get (fst kt) d with
                                | Some x => has_type (snd kt) x
                                | None => false
                                end) model
                 | _ => false
                 end) items
  | _, _ => false
  end.

(** A dict has every field of the model, each with a value of its type. *)
Definition conforms (model : list (string * response_type)) (d : dict) : bool :=
  forallb (fun kt =>
             match dict_get (fst kt) d with
             | Some x => has_type (snd kt) x
             | None => false
             end) model.

(** The JSON schema type the exporter should declare for an annotation. *)
Definition json_type (a : annotation) : string :=
  match a with
  | Str | OptionalStr => "string"
  | Int => "integer"
  end.

Definition tool_properties (tool : value) : option value :=
  match get_path tool "parameters" with
  | Some ps => get_path ps "properties"
  | None => None
  end.

(** A request with another key. *)
Definition with_api_key (k : option string) (request : WeatherRequest.t)
  : WeatherRequest.t :=
  WeatherRequest.mk (WeatherRequest.city request)
                    (WeatherRequest.country_code request)
                    (WeatherRequest.days request) k.

Definition air_with_api_key (k : option string) (request : AirQualityRequest.t)
  : AirQualityRequest.t :=
  AirQualityRequest.mk (AirQualityRequest.city request)
                       (AirQualityRequest.country_code request) k.

(** An optional text as a raw value. *)
Definition optional_value (x : option string) : value :=
  match x with
  | Some s => VStr s
  | None => VNone
  end.



Definition city_only : dict := [("city", VStr "Oslo")].

(** ** Lemmas on the Python primitives *)

Lemma range_length (n : Z) : List.length (range n) = Z.to_nat n.
Proof.
  unfold range. now rewrite length_map, length_seq.
Qed.

Lemma range_nth (n i : Z) :
  0 <= i < n -> nth_error (range n) (Z.to_nat i) = Some i.
Proof.
  intros Hi. unfold range.
  rewrite nth_error_map, nth_error_seq.
  destruct (Nat.ltb_spec (Z.to_nat i) (Z.to_nat n)) as [_ | Hge]; [| lia].
  simpl. f_equal. lia.
Qed.

Lemma range_bounded (n : Z) : Forall (fun i => 0 <= i < n) (range n).
Proof.
  unfold range. apply Forall_forall. intros i Hin.
  apply in_map_iff in Hin. destruct Hin as [k [<- Hk]].
  apply in_seq in Hk. lia.
Qed.

Lemma py_or_nonempty (s y : string) : s <> "" -> py_or (Some s) y = s.
Proof.
  intros Hs. unfold py_or.
  destruct (String.eqb_spec s "") as [E | _]; [contradiction | reflexivity].
Qed.

(** ** Lemmas on the forecast loop *)

Ltac small_index i H :=
  assert (i = 0 \/ i = 1 \/ i = 2 \/ i = 3 \/ i = 4 \/ i = 5 \/ i = 6) as H
    by lia;
  repeat destruct H as [H | H]; subst i.

Lemma forecast_entry_small (i : Z) (log : list LogRecord) :
  0 <= i < 7 -> forecast_entry i log = (Return (forecast_day i), log).
Proof.
  intros Hi. small_index i E; vm_compute; reflexivity.
Qed.

Lemma for_append_small (indices : list Z) :
  Forall (fun i => 0 <= i < 7) indices ->
  forall forecast_days log,
    for_append indices forecast_days log
    = (Return (forecast_days ++ map forecast_day indices), log).
Proof.
  induction 1 as [| i rest Hi _ IH]; intros acc log; simpl.
  - unfold ret. now rewrite app_nil_r.
  - unfold bind at 1. rewrite (forecast_entry_small i log Hi).
    rewrite IH, <- app_assoc. reflexivity.
Qed.

Lemma range_small (n : Z) : n <= 7 -> Forall (fun i => 0 <= i < 7) (range n).
Proof.
  intros Hn. eapply Forall_impl; [| apply range_bounded].
  simpl. intros i Hi. lia.
Qed.

(** ** The shape shared by the two handlers *)

(** A first log record, then a [try] block whose exceptions are logged and
    turned into an error payload. *)
Lemma handler_cases {A} (start msg : string) (block : M (A * dict))
  (log : list LogRecord) :
  (logger_info start ;;;
   try_except (fmap snd block)
     (fun e => logger_exception msg ;;; ret (error_payload e))) log
  = match block (log ++ [(INFO, start)]) with
    | (Return (_, payload), log') => (Return payload, log')
    | (Raise e, log') =>
        (Return (error_payload e), log' ++ [(ERROR, msg)])
    end.
Proof.
  unfold try_except, fmap, logger_info, logger_exception, bind, ret.
  destruct (block (log ++ [(INFO, start)])) as [[[key payload] | e] log'];
    reflexivity.
Qed.

(** ** What the handlers compute *)

Section HandlerFacts.

Variable environ : string -> option string.

(** The [try] block of [get_weather] returns when the loop runs at most
    seven times. *)
Lemma get_weather_try_returns (request : WeatherRequest.t) (log : list LogRecord) :
  WeatherRequest.days request <= 7 ->
  get_weather_try environ request log
  = (Return (py_or (WeatherRequest.api_key request) (DEFAULT_WEATHER_API_KEY environ),
             weather_payload request),
     log ++ [(INFO, ("Weather data retrieved successfully for "
                    ++ WeatherRequest.city request)%string)]).
Proof.
  intros Hd. unfold get_weather_try, bind.
  rewrite (for_append_small _ (range_small _ Hd)). reflexivity.
Qed.

Lemma get_weather_returns (request : WeatherRequest.t) (log : list LogRecord) :
  WeatherRequest.days request <= 7 ->
  get_weather environ request log
  = (Return (weather_payload request), log ++ weather_log request).
Proof.
  intros Hd. unfold get_weather, bind at 1, logger_info at 1.
  unfold try_except, fmap, bind at 1.
  rewrite (get_weather_try_returns _ _ Hd).
  unfold ret, weather_log. now rewrite <- app_assoc.
Qed.

Lemma get_air_quality_try_returns (request : AirQualityRequest.t)
  (log : list LogRecord) :
  get_air_quality_try environ request log
  = (Return (py_or (AirQualityRequest.api_key request)
                   (DEFAULT_WEATHER_API_KEY environ),
             ("city", VStr (AirQualityRequest.city request))
             :: ("country", VStr (py_or (AirQualityRequest.country_code request) "US"))
             :: air_quality_constants),
     log ++ [(INFO, ("Air quality data retrieved successfully for "
                    ++ AirQualityRequest.city request)%string)]).
Proof. reflexivity. Qed.

Lemma get_air_quality_returns (request : AirQualityRequest.t)
  (log : list LogRecord) :
  get_air_quality environ request log
  = (Return (("city", VStr (AirQualityRequest.city request))
             :: ("country", VStr (py_or (AirQualityRequest.country_code request) "US"))
             :: air_quality_constants),
     log ++ air_quality_log request).
Proof.
  unfold get_air_quality, bind at 1, logger_info at 1.
  unfold try_except, fmap, bind at 1.
  rewrite get_air_quality_try_returns.
  unfold ret, air_quality_log. now rewrite <- app_assoc.
Qed.

(** The entries of the forecast list of the success payload. *)
Lemma forecast_nth (n i : Z) :
  0 <= i < n ->
  nth_error (map forecast_day (range n)) (Z.to_nat i) = Some (forecast_day i).
Proof.
  intros Hi. now rewrite nth_error_map, (range_nth n i Hi).
Qed.

Lemma forecast_length (n : Z) :
  0 <= n -> Z.of_nat (List.length (map forecast_day (range n))) = n.
Proof.
  intros Hn. rewrite length_map, range_length. lia.
Qed.

End HandlerFacts.

(** ** The handlers' results *)

(** C1. For a validated weather request, with [days] between 1 and 7,
    [get_weather] returns a success payload: its forecast list has exactly
    [days] entries; entry [i] (counted from 0) has [min_temp = 18 + 0.5 * i],
    [max_temp = 25 + 0.7 * i] (binary64 arithmetic, as in Python) and
    condition ["Sunny"] for even [i], ["Cloudy"] for odd [i]; [current_temp]
    is the constant 23.5 and [current_condition] the constant ["Sunny"]. *)
Theorem get_weather_forecast_entries
  (environ : string -> option string) (request : WeatherRequest.t)
  (log : list LogRecord) :
  days_in_range request ->
  exists payload forecast log',
    get_weather environ request log = (Return payload, log') /\
    dict_get "error" payload = None /\
    dict_get "forecast" payload = Some (VList forecast) /\
    Z.of_nat (List.length forecast) = WeatherRequest.days request /\
    (forall i, 0 <= i < WeatherRequest.days request ->
       exists entry,
         nth_error forecast (Z.to_nat i) = Some (VDict entry) /\
         dict_get "min_temp" entry = Some (VFloat (18 + 0.5 * float_of_Z i)) /\
         dict_get "max_temp" entry = Some (VFloat (25 + 0.7 * float_of_Z i)) /\
         dict_get "condition" entry
         = Some (VStr (if Z.even i then "Sunny" else "Cloudy"))) /\
    dict_get "current_temp" payload = Some (VFloat 23.5) /\
    dict_get "current_condition" payload = Some (VStr "Sunny").
Proof.
  intros [Hlo Hhi].
  exists (weather_payload request),
         (map forecast_day (range (WeatherRequest.days request))),
         (log ++ weather_log request).
  split; [apply get_weather_returns; exact Hhi |].
  split; [reflexivity |].
  split; [reflexivity |].
  split; [apply forecast_length; lia |].
  split; [| split; reflexivity].
  intros i Hi. eexists. split.
  - rewrite (forecast_nth _ i Hi). unfold forecast_day. reflexivity.
  - repeat split.
Qed.

Lemma get_weather_forecast_entries_witness :
  exists payload forecast log',
    get_weather no_environ seoul_two_days [] = (Return payload, log') /\
    dict_get "forecast" payload = Some (VList forecast) /\
    Z.of_nat (List.length forecast) = 2 /\
    dict_get "current_temp" payload = Some (VFloat 23.5).
Proof.
  assert (days_in_range seoul_two_days) as Hr
    by (unfold days_in_range; simpl; lia).
  destruct (get_weather_forecast_entries no_environ seoul_two_days [] Hr)
    as (payload & forecast & log' & Hrun & _ & Hf & Hlen & _ & Hcur & _).
  exists payload, forecast, log'. repeat split; assumption.
Defined.

(** C4. For a validated weather request, forecast entry [i] has the date
    ["2025-05-"] followed by the decimal rendering of [27 + i], which has
    two digits, so that no padding takes place; for [days = 7] the last
    entry is dated ["2025-05-33"]: the day number is not rolled over into
    the next month. *)
Theorem get_weather_forecast_dates
  (environ : string -> option string) (request : WeatherRequest.t)
  (log : list LogRecord) :
  days_in_range request ->
  exists payload forecast log',
    get_weather environ request log = (Return payload, log') /\
    dict_get "forecast" payload = Some (VList forecast) /\
    (forall i, 0 <= i < WeatherRequest.days request ->
       exists entry,
         nth_error forecast (Z.to_nat i) = Some (VDict entry) /\
         dict_get "date" entry = Some (VStr ("2025-05-" ++ str_int (27 + i))) /\
         String.length (str_int (27 + i)) = 2%nat) /\
    (WeatherRequest.days request = 7 ->
       exists entry,
         last forecast VNone = VDict entry /\
         dict_get "date" entry = Some (VStr "2025-05-33")).
Proof.
  intros [Hlo Hhi].
  exists (weather_payload request),
         (map forecast_day (range (WeatherRequest.days request))),
         (log ++ weather_log request).
  split; [apply get_weather_returns; exact Hhi |].
  split; [reflexivity |].
  split.
  - intros i Hi. eexists. split; [| split].
    + rewrite (forecast_nth _ i Hi). unfold forecast_day. reflexivity.
    + reflexivity.
    + assert (0 <= i < 7) as Hi7 by lia. clear Hi.
      small_index i E; reflexivity.
  - intros ->. eexists. split; vm_compute; reflexivity.
Qed.

Lemma get_weather_forecast_dates_witness :
  exists payload forecast entry log',
    get_weather no_environ seoul_week [] = (Return payload, log') /\
    dict_get "forecast" payload = Some (VList forecast) /\
    last forecast VNone = VDict entry /\
    dict_get "date" entry = Some (VStr "2025-05-33").
Proof.
  assert (days_in_range seoul_week) as Hr
    by (unfold days_in_range; simpl; lia).
  destruct (get_weather_forecast_dates no_environ seoul_week [] Hr)
    as (payload & forecast & log' & Hrun & Hf & _ & Hlast).
  destruct (Hlast eq_refl) as (entry & He & Hd).
  exists payload, forecast, entry, log'. repeat split; assumption.
Defined.

(** Two concrete calls, evaluated. *)
Example seoul_two_days_payload :
  get_weather no_environ seoul_two_days []
  = (Return [("city", VStr "Seoul"); ("country", VStr "US");
             ("current_temp", VFloat 23.5);
             ("current_condition", VStr "Sunny");
             ("forecast",
              VList [VDict [("date", VStr "2025-05-27");
                            ("min_temp", VFloat 18);
                            ("max_temp", VFloat 25);
                            ("condition", VStr "Sunny")];
                     VDict [("date", VStr "2025-05-28");
                            ("min_temp", VFloat 18.5);
                            ("max_temp", VFloat 25.7);
                            ("condition", VStr "Cloudy")]])],
     weather_log seoul_two_days).
Proof. vm_compute. reflexivity. Qed.

Example days_eight_rejected :
  call_get_weather no_environ lax_str_as_int days_eight []
  = Rejected [mkErr "days" (less_than_equal 7)].
Proof. reflexivity. Qed.

(** The concrete conversions on some spellings of a number of days. *)
Example lax_str_as_int_spellings :
  map lax_str_as_int ["3"; "3.0"; " 3 "; "0_3"; "-2"; "3.5"; "three"; ""]
  = [inl 3; inl 3; inl 3; inl 3; inl (-2); inr int_parsing; inr int_parsing;
     inr int_parsing].
Proof. vm_compute. reflexivity. Qed.

Example float_as_int_values :
  map float_as_int [3.0; 3.5; 1e300; infinity]%float
  = [inl 3; inr int_from_float; inr int_parsing_size; inr finite_number].
Proof. vm_compute. reflexivity. Qed.

(** C5. Whatever the city, country code and key of the request (and
    whatever the environment), [get_air_quality] returns a payload whose
    [aqi], [quality_level], [pollutants] and [health_recommendations] are the
    fixed constants; apart from [city] and [country] the payload is the same
    for every request. *)
Theorem get_air_quality_constant
  (environ : string -> option string) (request : AirQualityRequest.t)
  (log : list LogRecord) :
  exists payload log',
    get_air_quality environ request log = (Return payload, log') /\
    dict_get "aqi" payload = Some (VInt 45) /\
    dict_get "quality_level" payload = Some (VStr "Good") /\
    dict_get "pollutants" payload
    = Some (VDict [("pm2_5", VFloat 12.5); ("pm10", VFloat 25.3);
                   ("o3", VFloat 68.2); ("no2", VFloat 15.7);
                   ("so2", VFloat 5.2); ("co", VFloat 0.8)]) /\
    dict_get "health_recommendations" payload
    = Some (VStr "Air quality is good. Suitable for outdoor activities.") /\
    dict_keys payload
    = ["city"; "country"; "aqi"; "quality_level"; "pollutants";
       "health_recommendations"] /\
    dict_without ["city"; "country"] payload = air_quality_constants.
Proof.
  eexists. eexists. split; [apply get_air_quality_returns |].
  repeat split.
Qed.

(** C9. [health] takes no input and returns exactly [{"status": "ok"}],
    always, without writing to the log. *)
Theorem health_ok (u : unit) (log : list LogRecord) :
  health u log = (Return [("status", VStr "ok")], log).
Proof. reflexivity. Qed.

(** ** Lemmas on validation *)

Lemma ap_errors {A B} (rf : validated (A -> B)) (ra : validated A) :
  errors_of (rf <*> ra) = errors_of rf ++ errors_of ra.
Proof.
  destruct rf, ra; reflexivity.
Qed.

Lemma ap_ok_inv {A B} (rf : validated (A -> B)) (ra : validated A) (b : B) :
  rf <*> ra = Ok b -> exists f a, rf = Ok f /\ ra = Ok a /\ b = f a.
Proof.
  destruct rf as [f | ], ra as [a | ]; simpl; intros H; try discriminate.
  injection H as <-. now exists f, a.
Qed.

(** Every error of a field names that field. *)
Lemma validate_field_loc {str_as_int : string -> Z + error_type}
  (f : FieldInfo) (data : dict) :
  Forall (fun e => loc e = name f) (errors_of (validate_field str_as_int f data)).
Proof.
  unfold validate_field.
  destruct (dict_get (name f) data) as [v | ].
  - destruct (validate_value str_as_int (ann f) (ge f) (le f) v); simpl; auto.
  - destruct (default f); simpl; auto.
Qed.

(** A field reports no error under another name. *)
Lemma validate_field_other {str_as_int : string -> Z + error_type}
  (f : FieldInfo) (data : dict) (k : string) :
  name f <> k ->
  ~ In k (map loc (errors_of (validate_field str_as_int f data))).
Proof.
  intros Hn Hin. apply in_map_iff in Hin. destruct Hin as (e & He & Hin).
  pose proof (validate_field_loc (str_as_int := str_as_int) f data) as Hl.
  rewrite Forall_forall in Hl. apply Hn. rewrite <- (Hl e Hin). exact He.
Qed.

Lemma weather_errors {str_as_int : string -> Z + error_type}
  (data : dict) :
  errors_of (WeatherRequest.model_validate str_as_int data)
  = errors_of (validate_field str_as_int WeatherRequest.city_field data)
    ++ errors_of (validate_field str_as_int WeatherRequest.country_code_field data)
    ++ errors_of (validate_field str_as_int WeatherRequest.days_field data)
    ++ errors_of (validate_field str_as_int WeatherRequest.api_key_field data).
Proof.
  unfold WeatherRequest.model_validate.
  rewrite !ap_errors. simpl. now rewrite <- !app_assoc.
Qed.

Lemma air_quality_errors {str_as_int : string -> Z + error_type}
  (data : dict) :
  errors_of (AirQualityRequest.model_validate str_as_int data)
  = errors_of (validate_field str_as_int AirQualityRequest.city_field data)
    ++ errors_of (validate_field str_as_int AirQualityRequest.country_code_field data)
    ++ errors_of (validate_field str_as_int AirQualityRequest.api_key_field data).
Proof.
  unfold AirQualityRequest.model_validate.
  rewrite !ap_errors. simpl. now rewrite <- !app_assoc.
Qed.

(** A model with an error is rejected, with all the errors of its fields. *)
Lemma rejected_of_errors {A} (r : validated A) :
  errors_of r <> [] -> r = ValidationError (errors_of r).
Proof.
  destruct r; simpl; intros H; [now contradiction H | reflexivity].
Qed.

Lemma weather_ok_inv {str_as_int : string -> Z + error_type}
  (data : dict) (request : WeatherRequest.t) :
  WeatherRequest.model_validate str_as_int data = Ok request ->
  validate_field str_as_int WeatherRequest.city_field data
  = Ok (WeatherRequest.city request) /\
  validate_field str_as_int WeatherRequest.country_code_field data
  = Ok (WeatherRequest.country_code request) /\
  validate_field str_as_int WeatherRequest.days_field data
  = Ok (WeatherRequest.days request) /\
  validate_field str_as_int WeatherRequest.api_key_field data
  = Ok (WeatherRequest.api_key request).
Proof.
  unfold WeatherRequest.model_validate. intros H.
  apply ap_ok_inv in H. destruct H as (f4 & a4 & H & -> & ->).
  apply ap_ok_inv in H. destruct H as (f3 & a3 & H & -> & ->).
  apply ap_ok_inv in H. destruct H as (f2 & a2 & H & -> & ->).
  apply ap_ok_inv in H. destruct H as (f1 & a1 & H & -> & ->).
  injection H as <-. auto.
Qed.

Lemma air_quality_ok_inv {str_as_int : string -> Z + error_type}
  (data : dict) (request : AirQualityRequest.t) :
  AirQualityRequest.model_validate str_as_int data = Ok request ->
  validate_field str_as_int AirQualityRequest.city_field data
  = Ok (AirQualityRequest.city request) /\
  validate_field str_as_int AirQualityRequest.country_code_field data
  = Ok (AirQualityRequest.country_code request) /\
  validate_field str_as_int AirQualityRequest.api_key_field data
  = Ok (AirQualityRequest.api_key request).
Proof.
  unfold AirQualityRequest.model_validate. intros H.
  apply ap_ok_inv in H. destruct H as (f3 & a3 & H & -> & ->).
  apply ap_ok_inv in H. destruct H as (f2 & a2 & H & -> & ->).
  apply ap_ok_inv in H. destruct H as (f1 & a1 & H & -> & ->).
  injection H as <-. auto.
Qed.

(** The result of the [days] field when the payload has one. *)
Lemma days_field_present {str_as_int : string -> Z + error_type}
  (data : dict) (v : value) :
  dict_get "days" data = Some v ->
  validate_field str_as_int WeatherRequest.days_field data
  = match int_validator str_as_int v with
    | inl z =>
        if z <? 1 then ValidationError [mkErr "days" (greater_than_equal 1)]
        else if 7 <? z then ValidationError [mkErr "days" (less_than_equal 7)]
        else Ok z
    | inr e => ValidationError [mkErr "days" e]
    end.
Proof.
  intros Hv. unfold validate_field. simpl. rewrite Hv.
  destruct (int_validator str_as_int v) as [z | e]; [| reflexivity].
  simpl. destruct (z <? 1); [reflexivity |].
  destruct (7 <? z); reflexivity.
Qed.

(** An error of the [days] field rejects the whole request. *)
Lemma weather_rejected_by_days {str_as_int : string -> Z + error_type}
  (data : dict) (e : ErrorDetails) :
  validate_field str_as_int WeatherRequest.days_field data = ValidationError [e] ->
  exists errors,
    WeatherRequest.model_validate str_as_int data = ValidationError errors /\
    In e errors.
Proof.
  intros He. exists (errors_of (WeatherRequest.model_validate str_as_int data)).
  assert (In e (errors_of (WeatherRequest.model_validate str_as_int data))) as Hin.
  { rewrite weather_errors, He. simpl.
    apply in_or_app. right. apply in_or_app. right. now left. }
  split; [| exact Hin].
  apply rejected_of_errors. intros E. now rewrite E in Hin.
Qed.

(** The validated [days] lies within the bounds of the model, whether the
    payload gives it or not. *)
Lemma weather_ok_days {str_as_int : string -> Z + error_type}
  (data : dict) (request : WeatherRequest.t) :
  WeatherRequest.model_validate str_as_int data = Ok request -> days_in_range request.
Proof.
  intros H. apply weather_ok_inv in H. destruct H as (_ & _ & Hd & _).
  unfold days_in_range.
  destruct (dict_get "days" data) as [v | ] eqn:Hv.
  - rewrite (days_field_present data v Hv) in Hd.
    destruct (int_validator str_as_int v) as [z | e]; [| discriminate].
    destruct (Z.ltb_spec z 1); [discriminate |].
    destruct (Z.ltb_spec 7 z); [discriminate |].
    injection Hd as <-. lia.
  - unfold validate_field in Hd. simpl in Hd. rewrite Hv in Hd.
    injection Hd as <-. lia.
Qed.

(** ** Validation of the raw payload *)

(** C2, as the code has it. For a raw [get_weather] payload that gives
    [days], and whatever way the validator reads text as an integer: when
    the value is an integer outside of 1..7, or is [None], a list or a
    dict, or any value the [int] validator refuses, or one it converts to
    an integer outside of 1..7, the call is rejected with a
    [ValidationError] that names [days] and the handler does not run; when
    the payload is accepted, the validated [days] is exactly the integer
    the validator read, within 1..7: no value is moved into range. *)
Theorem days_rejected_or_exact
  (str_as_int : string -> Z + error_type)
  (environ : string -> option string) (data : dict) (v : value)
  (log : list LogRecord) :
  dict_get "days" data = Some v ->
  (forall z, v = VInt z -> z < 1 \/ 7 < z ->
     exists errors,
       WeatherRequest.model_validate str_as_int data = ValidationError errors /\
       In "days" (map loc errors) /\
       call_get_weather environ str_as_int data log = Rejected errors) /\
  (v = VNone \/ (exists l, v = VList l) \/ (exists d, v = VDict d) ->
     exists errors,
       WeatherRequest.model_validate str_as_int data = ValidationError errors /\
       In (mkErr "days" int_type) errors /\
       call_get_weather environ str_as_int data log = Rejected errors) /\
  (forall e, int_validator str_as_int v = inr e ->
     exists errors,
       WeatherRequest.model_validate str_as_int data = ValidationError errors /\
       In (mkErr "days" e) errors /\
       call_get_weather environ str_as_int data log = Rejected errors) /\
  (forall z, int_validator str_as_int v = inl z -> z < 1 \/ 7 < z ->
     exists errors,
       WeatherRequest.model_validate str_as_int data = ValidationError errors /\
       In "days" (map loc errors) /\
       call_get_weather environ str_as_int data log = Rejected errors) /\
  (forall z, int_validator str_as_int v = inl z -> 1 <= z <= 7 ->
     ~ In "days"
         (map loc (errors_of (WeatherRequest.model_validate str_as_int data)))) /\
  (forall request,
     WeatherRequest.model_validate str_as_int data = Ok request ->
     int_validator str_as_int v = inl (WeatherRequest.days request) /\
     1 <= WeatherRequest.days request <= 7 /\
     (forall z, v = VInt z -> WeatherRequest.days request = z)).
Proof.
  intros Hv.
  assert (forall z, int_validator str_as_int v = inl z -> z < 1 \/ 7 < z ->
            exists errors,
              WeatherRequest.model_validate str_as_int data = ValidationError errors /\
              In "days" (map loc errors) /\
              call_get_weather environ str_as_int data log = Rejected errors) as Hout.
  { intros z Hz Hrange.
    assert (exists e, validate_field str_as_int WeatherRequest.days_field data
                      = ValidationError [mkErr "days" e]) as [e He].
    { rewrite (days_field_present data v Hv), Hz.
      destruct (Z.ltb_spec z 1); [eauto |].
      destruct (Z.ltb_spec 7 z); [eauto | lia]. }
    destruct (weather_rejected_by_days data _ He) as (errors & Herr & Hin).
    exists errors. split; [exact Herr |]. split.
    - apply in_map_iff. exists (mkErr "days" e). now split.
    - unfold call_get_weather, call_tool. now rewrite Herr. }
  assert (forall e, int_validator str_as_int v = inr e ->
            exists errors,
              WeatherRequest.model_validate str_as_int data
              = ValidationError errors /\
              In (mkErr "days" e) errors /\
              call_get_weather environ str_as_int data log = Rejected errors)
    as Hrefused.
  { intros e He.
    assert (validate_field str_as_int WeatherRequest.days_field data
            = ValidationError [mkErr "days" e]) as Hf
      by now rewrite (days_field_present data v Hv), He.
    destruct (weather_rejected_by_days data _ Hf) as (errors & Herr & Hin).
    exists errors. split; [exact Herr |]. split; [exact Hin |].
    unfold call_get_weather, call_tool. now rewrite Herr. }
  split; [| split; [| split; [| split; [| split]]]].
  - intros z -> Hrange. now apply (Hout z).
  - intros Hkind. apply Hrefused.
    destruct Hkind as [-> | [[l ->] | [d ->]]]; reflexivity.
  - exact Hrefused.
  - exact Hout.
  - intros z Hz Hrange.
    assert (validate_field str_as_int WeatherRequest.days_field data = Ok z)
      as Hf.
    { rewrite (days_field_present data v Hv), Hz.
      destruct (Z.ltb_spec z 1); [lia |].
      destruct (Z.ltb_spec 7 z); [lia | reflexivity]. }
    rewrite weather_errors, Hf. cbn [errors_of app]. rewrite !map_app.
    intros Hin.
    apply in_app_or in Hin as [Hin | Hin];
      [| apply in_app_or in Hin as [Hin | Hin]];
      revert Hin; apply validate_field_other; discriminate.
  - intros request Hok.
    pose proof (weather_ok_days data request Hok) as Hrange.
    apply weather_ok_inv in Hok. destruct Hok as (_ & _ & Hd & _).
    rewrite (days_field_present data v Hv) in Hd.
    assert (int_validator str_as_int v = inl (WeatherRequest.days request)) as Hint.
    { destruct (int_validator str_as_int v) as [z | e]; [| discriminate].
      destruct (z <? 1); [discriminate |].
      destruct (7 <? z); [discriminate |].
      now injection Hd as ->. }
    split; [exact Hint |]. split; [exact Hrange |].
    intros z ->. simpl in Hint. now injection Hint as ->.
Qed.

Lemma days_rejected_or_exact_witness :
  exists errors,
    WeatherRequest.model_validate lax_str_as_int days_eight = ValidationError errors /\
    In "days" (map loc errors) /\
    call_get_weather no_environ lax_str_as_int days_eight [] = Rejected errors.
Proof.
  apply (proj1 (days_rejected_or_exact lax_str_as_int no_environ days_eight
                  (VInt 8) [] eq_refl) 8 eq_refl).
  right. lia.
Defined.

(** C2 as stated fails: a [days] that is no integer but the text ["3"] is
    accepted, as 3, and the handler runs and makes a forecast for it. *)
Lemma days_as_text_accepted :
  dict_get "days" days_as_text = Some (VStr "3") /\
  (forall z, VStr "3" <> VInt z) /\
  WeatherRequest.model_validate lax_str_as_int days_as_text
  = Ok (WeatherRequest.mk "X" None 3 None) /\
  was_rejected (call_get_weather no_environ lax_str_as_int days_as_text [])
  = false /\
  returned_field "forecast"
    (call_get_weather no_environ lax_str_as_int days_as_text [])
  = Some (VList [forecast_day 0; forecast_day 1; forecast_day 2]).
Proof.
  split; [reflexivity |].
  split; [intros z H; discriminate H |].
  split; [reflexivity |].
  split; vm_compute; reflexivity.
Qed.

(** C8, as the code has it. For both request models a payload without
    [city] is rejected with a [ValidationError] ([city] is [missing]) and no
    handler runs; so is a payload whose [city] is not text.  A [city] that
    is text passes, whatever the text: no error ever names [city], the
    validated request carries the text as it is, and a payload that gives
    only such a [city] is accepted, the empty string included. *)
Theorem city_required
  (str_as_int : string -> Z + error_type)
  (environ : string -> option string) (data : dict) (log : list LogRecord) :
  (dict_get "city" data = None ->
     (exists errors,
        WeatherRequest.model_validate str_as_int data = ValidationError errors /\
        In (mkErr "city" missing) errors /\
        call_get_weather environ str_as_int data log = Rejected errors) /\
     (exists errors,
        AirQualityRequest.model_validate str_as_int data = ValidationError errors /\
        In (mkErr "city" missing) errors /\
        call_get_air_quality environ str_as_int data log = Rejected errors)) /\
  (forall v, dict_get "city" data = Some v -> (forall s, v <> VStr s) ->
     (exists errors,
        WeatherRequest.model_validate str_as_int data = ValidationError errors /\
        In (mkErr "city" string_type) errors /\
        call_get_weather environ str_as_int data log = Rejected errors) /\
     (exists errors,
        AirQualityRequest.model_validate str_as_int data = ValidationError errors /\
        In (mkErr "city" string_type) errors /\
        call_get_air_quality environ str_as_int data log = Rejected errors)) /\
  (forall s, dict_get "city" data = Some (VStr s) ->
     ~ In "city" (map loc (errors_of (WeatherRequest.model_validate str_as_int data))) /\
     ~ In "city" (map loc (errors_of (AirQualityRequest.model_validate str_as_int data))) /\
     (forall request, WeatherRequest.model_validate str_as_int data = Ok request ->
                      WeatherRequest.city request = s) /\
     (forall request, AirQualityRequest.model_validate str_as_int data = Ok request ->
                      AirQualityRequest.city request = s)) /\
  (forall s,
     WeatherRequest.model_validate str_as_int [("city", VStr s)]
     = Ok (WeatherRequest.mk s None 3 None) /\
     AirQualityRequest.model_validate str_as_int [("city", VStr s)]
     = Ok (AirQualityRequest.mk s None None)).
Proof.
  assert (forall e,
            validate_field str_as_int WeatherRequest.city_field data
            = ValidationError [mkErr "city" e] ->
            (exists errors,
               WeatherRequest.model_validate str_as_int data = ValidationError errors /\
               In (mkErr "city" e) errors /\
               call_get_weather environ str_as_int data log = Rejected errors) /\
            (exists errors,
               AirQualityRequest.model_validate str_as_int data = ValidationError errors /\
               In (mkErr "city" e) errors /\
               call_get_air_quality environ str_as_int data log = Rejected errors))
    as Hrej.
  { intros e He.
    assert (In (mkErr "city" e)
               (errors_of (WeatherRequest.model_validate str_as_int data))) as Hw
      by (rewrite weather_errors, He; now left).
    assert (In (mkErr "city" e)
               (errors_of (AirQualityRequest.model_validate str_as_int data))) as Ha
      by (rewrite air_quality_errors;
          change (validate_field str_as_int AirQualityRequest.city_field data)
            with (validate_field str_as_int WeatherRequest.city_field data);
          rewrite He; now left).
    split.
    - exists (errors_of (WeatherRequest.model_validate str_as_int data)).
      assert (WeatherRequest.model_validate str_as_int data
              = ValidationError (errors_of (WeatherRequest.model_validate str_as_int data)))
        as Hv by (apply rejected_of_errors; intros E; now rewrite E in Hw).
      split; [exact Hv |]. split; [exact Hw |].
      unfold call_get_weather, call_tool. now rewrite Hv at 1.
    - exists (errors_of (AirQualityRequest.model_validate str_as_int data)).
      assert (AirQualityRequest.model_validate str_as_int data
              = ValidationError
                  (errors_of (AirQualityRequest.model_validate str_as_int data)))
        as Hv by (apply rejected_of_errors; intros E; now rewrite E in Ha).
      split; [exact Hv |]. split; [exact Ha |].
      unfold call_get_air_quality, call_tool. now rewrite Hv at 1. }
  split; [| split; [| split]].
  - intros Hc. apply Hrej.
    unfold validate_field. simpl. now rewrite Hc.
  - intros v Hc Hv. apply Hrej.
    unfold validate_field. simpl. rewrite Hc.
    destruct v; try reflexivity. now contradiction (Hv s).
  - intros s Hc.
    assert (validate_field str_as_int WeatherRequest.city_field data = Ok s) as Hf
      by (unfold validate_field; simpl; now rewrite Hc).
    assert (forall f, name f <> "city" ->
              ~ In "city" (map loc (errors_of (validate_field str_as_int f data))))
      as Hother.
    { intros f Hn Hin. apply in_map_iff in Hin.
      destruct Hin as (e & He & Hin).
      pose proof (validate_field_loc (str_as_int := str_as_int) f data) as Hl.
      rewrite Forall_forall in Hl. apply Hn. rewrite <- (Hl e Hin). exact He. }
    split; [| split; [| split]].
    + rewrite weather_errors, Hf. cbn [errors_of app]. rewrite !map_app.
      intros Hin.
      apply in_app_or in Hin as [Hin | Hin];
        [| apply in_app_or in Hin as [Hin | Hin]];
        revert Hin; apply Hother; discriminate.
    + rewrite air_quality_errors.
      change (validate_field str_as_int AirQualityRequest.city_field data)
        with (validate_field str_as_int WeatherRequest.city_field data).
      rewrite Hf. cbn [errors_of app]. rewrite !map_app.
      intros Hin.
      apply in_app_or in Hin as [Hin | Hin];
        revert Hin; apply Hother; discriminate.
    + intros request Hok. apply weather_ok_inv in Hok.
      destruct Hok as (Hcity & _). rewrite Hf in Hcity. now injection Hcity.
    + intros request Hok. apply air_quality_ok_inv in Hok.
      destruct Hok as (Hcity & _).
      change (validate_field str_as_int AirQualityRequest.city_field data)
        with (validate_field str_as_int WeatherRequest.city_field data) in Hcity.
      rewrite Hf in Hcity. now injection Hcity.
  - intros s. split; reflexivity.
Qed.

Lemma city_required_witness :
  (exists errors,
     WeatherRequest.model_validate lax_str_as_int no_city = ValidationError errors /\
     In (mkErr "city" missing) errors /\
     call_get_weather no_environ lax_str_as_int no_city [] = Rejected errors) /\
  WeatherRequest.model_validate lax_str_as_int [("city", VStr "")]
  = Ok (WeatherRequest.mk "" None 3 None).
Proof.
  split.
  - exact (proj1 (proj1 (city_required lax_str_as_int no_environ no_city [])
                    eq_refl)).
  - exact (proj1 (proj2 (proj2 (proj2
                    (city_required lax_str_as_int no_environ no_city [])))
                    "")).
Defined.

(** C8 as stated fails: a payload whose [city] is the empty string is
    accepted by both models, and both handlers run on it. *)
Lemma empty_city_accepted :
  WeatherRequest.model_validate lax_str_as_int empty_city
  = Ok (WeatherRequest.mk "" None 3 None) /\
  AirQualityRequest.model_validate lax_str_as_int empty_city
  = Ok (AirQualityRequest.mk "" None None) /\
  returned_field "city" (call_get_weather no_environ lax_str_as_int empty_city [])
  = Some (VStr "") /\
  returned_field "city" (call_get_air_quality no_environ lax_str_as_int empty_city [])
  = Some (VStr "").
Proof.
  split; [reflexivity |]. split; [reflexivity |].
  split; vm_compute; reflexivity.
Qed.

(** ** The exporter against the validator *)

(** C3. [get_tool_definitions] returns, under the key [tools], the list of
    the exporter.  The definitions in that list name exactly [health],
    [get_weather] and [get_air_quality]; for each of them the declared
    [required] list is the list of required fields of the model the
    validator checks (none for [health], [city] alone for the two others);
    the bounds and the default declared for [days] are those of the
    model. *)
Theorem tool_definitions_match_validator (u : unit) (log : list LogRecord) :
  exists tools,
  get_tool_definitions u log = (Return [("tools", VList tools)], log) /\
  tools = generate_tool_definitions /\
  map tool_name tools
  = [Some (VStr "health"); Some (VStr "get_weather");
     Some (VStr "get_air_quality")] /\
  Forall (fun tool =>
            exists n fields,
              tool_name tool = Some (VStr n) /\
              input_fields n = Some fields /\
              tool_required tool = Some (VList (map VStr (required_fields fields))))
         tools /\
  option_map required_fields (input_fields "health") = Some [] /\
  option_map required_fields (input_fields "get_weather") = Some ["city"] /\
  option_map required_fields (input_fields "get_air_quality") = Some ["city"] /\
  (exists tool,
     find_tool "get_weather" tools = Some tool /\
     tool_property tool "days" "minimum"
     = option_map VInt (ge WeatherRequest.days_field) /\
     tool_property tool "days" "maximum"
     = option_map VInt (le WeatherRequest.days_field) /\
     tool_property tool "days" "default"
     = option_map VInt (default WeatherRequest.days_field) /\
     tool_property tool "days" "minimum" = Some (VInt 1) /\
     tool_property tool "days" "maximum" = Some (VInt 7) /\
     tool_property tool "days" "default" = Some (VInt 3)) /\
  In WeatherRequest.days_field WeatherRequest.model_fields.
Proof.
  exists generate_tool_definitions.
  split; [reflexivity |]. split; [reflexivity |].
  split; [reflexivity |].
  split.
  - unfold generate_tool_definitions.
    repeat constructor.
    + exists "health", []. repeat split.
    + exists "get_weather", WeatherRequest.model_fields. repeat split.
    + exists "get_air_quality", AirQualityRequest.model_fields. repeat split.
  - split; [reflexivity |]. split; [reflexivity |]. split; [reflexivity |].
    split.
    + eexists. split; [reflexivity |]. repeat split.
    + simpl. auto.
Qed.

(** ** Fallbacks and exceptions *)

(** C6, as the code has it. In the payload of both handlers [city] is the
    request's city; [country] is the request's country code when one is
    given and is not the empty string, and is ["US"] when none is given or
    the one given is empty. *)
Theorem country_echo_or_default (environ : string -> option string) :
  (forall (request : WeatherRequest.t) log,
     days_in_range request ->
     exists payload log',
       get_weather environ request log = (Return payload, log') /\
       dict_get "city" payload = Some (VStr (WeatherRequest.city request)) /\
       (forall c, WeatherRequest.country_code request = Some c -> c <> "" ->
                  dict_get "country" payload = Some (VStr c)) /\
       (WeatherRequest.country_code request = None \/
        WeatherRequest.country_code request = Some "" ->
        dict_get "country" payload = Some (VStr "US"))) /\
  (forall (request : AirQualityRequest.t) log,
     exists payload log',
       get_air_quality environ request log = (Return payload, log') /\
       dict_get "city" payload = Some (VStr (AirQualityRequest.city request)) /\
       (forall c, AirQualityRequest.country_code request = Some c -> c <> "" ->
                  dict_get "country" payload = Some (VStr c)) /\
       (AirQualityRequest.country_code request = None \/
        AirQualityRequest.country_code request = Some "" ->
        dict_get "country" payload = Some (VStr "US"))).
Proof.
  split.
  - intros request log [_ Hhi].
    eexists. eexists. split; [apply get_weather_returns; exact Hhi |].
    split; [reflexivity |]. split.
    + intros c Hc Hne. simpl. now rewrite Hc, (py_or_nonempty c "US" Hne).
    + intros [Hc | Hc]; simpl; now rewrite Hc.
  - intros request log.
    eexists. eexists. split; [apply get_air_quality_returns |].
    split; [reflexivity |]. split.
    + intros c Hc Hne. simpl. now rewrite Hc, (py_or_nonempty c "US" Hne).
    + intros [Hc | Hc]; simpl; now rewrite Hc.
Qed.

Lemma country_echo_or_default_witness :
  (exists payload log',
     get_weather no_environ seoul_week [] = (Return payload, log') /\
     dict_get "country" payload = Some (VStr "KR")) /\
  (exists payload log',
     get_air_quality no_environ empty_country_air [] = (Return payload, log') /\
     dict_get "country" payload = Some (VStr "US")).
Proof.
  assert (days_in_range seoul_week) as Hr
    by (unfold days_in_range; simpl; lia).
  split.
  - destruct (proj1 (country_echo_or_default no_environ) seoul_week [] Hr)
      as (payload & log' & Hrun & _ & Hgiven & _).
    exists payload, log'. split; [exact Hrun |].
    apply (Hgiven "KR"); [reflexivity | discriminate].
  - destruct (proj2 (country_echo_or_default no_environ) empty_country_air [])
      as (payload & log' & Hrun & _ & _ & Hempty).
    exists payload, log'. split; [exact Hrun |].
    apply Hempty. now right.
Defined.

(** C6 as stated fails: a country code that is given, but empty, is not
    echoed; the payload of both handlers has the country ["US"]. *)
Lemma empty_country_code_not_echoed :
  days_in_range empty_country_weather /\
  WeatherRequest.country_code empty_country_weather = Some "" /\
  payload_field "country" (get_weather no_environ empty_country_weather [])
  = Some (VStr "US") /\
  AirQualityRequest.country_code empty_country_air = Some "" /\
  payload_field "country" (get_air_quality no_environ empty_country_air [])
  = Some (VStr "US") /\
  VStr "US" <> VStr "".
Proof.
  split; [unfold days_in_range; simpl; lia |].
  split; [reflexivity |].
  split; [vm_compute; reflexivity |].
  split; [reflexivity |].
  split; [vm_compute; reflexivity |].
  discriminate.
Qed.



(** C10. The fallbacks go by truthiness: in both handlers a country code
    that is given but empty yields the country ["US"], as an absent one
    does, and a key that is given but empty resolves to the default key of
    the process, as an absent one does. *)
Theorem fallbacks_by_truthiness (environ : string -> option string) :
  (forall (request : WeatherRequest.t) log,
     days_in_range request ->
     exists key payload log1 log2,
       get_weather_try environ request log = (Return (key, payload), log1) /\
       get_weather environ request log = (Return payload, log2) /\
       (WeatherRequest.country_code request = Some "" \/
        WeatherRequest.country_code request = None ->
        dict_get "country" payload = Some (VStr "US")) /\
       (WeatherRequest.api_key request = Some "" \/
        WeatherRequest.api_key request = None ->
        key = DEFAULT_WEATHER_API_KEY environ)) /\
  (forall (request : AirQualityRequest.t) log,
     exists key payload log1 log2,
       get_air_quality_try environ request log = (Return (key, payload), log1) /\
       get_air_quality environ request log = (Return payload, log2) /\
       (AirQualityRequest.country_code request = Some "" \/
        AirQualityRequest.country_code request = None ->
        dict_get "country" payload = Some (VStr "US")) /\
       (AirQualityRequest.api_key request = Some "" \/
        AirQualityRequest.api_key request = None ->
        key = DEFAULT_WEATHER_API_KEY environ)).
Proof.
  split.
  - intros request log [_ Hhi].
    eexists. eexists. eexists. eexists.
    split; [apply get_weather_try_returns; exact Hhi |].
    split; [apply get_weather_returns; exact Hhi |].
    split; intros [H | H]; simpl; now rewrite H.
  - intros request log.
    eexists. eexists. eexists. eexists.
    split; [apply get_air_quality_try_returns |].
    split; [apply get_air_quality_returns |].
    split; intros [H | H]; simpl; now rewrite H.
Qed.

Lemma fallbacks_by_truthiness_witness :
  (exists key payload log1 log2,
     get_weather_try no_environ empty_country_weather []
     = (Return (key, payload), log1) /\
     get_weather no_environ empty_country_weather [] = (Return payload, log2) /\
     dict_get "country" payload = Some (VStr "US") /\
     key = "demo_api_key") /\
  (exists key payload log1 log2,
     get_air_quality_try no_environ empty_country_air []
     = (Return (key, payload), log1) /\
     get_air_quality no_environ empty_country_air [] = (Return payload, log2) /\
     dict_get "country" payload = Some (VStr "US") /\
     key = "demo_api_key").
Proof.
  assert (days_in_range empty_country_weather) as Hr
    by (unfold days_in_range; simpl; lia).
  split.
  - destruct (proj1 (fallbacks_by_truthiness no_environ)
                empty_country_weather [] Hr)
      as (key & payload & log1 & log2 & Htry & Hrun & Hc & Hk).
    exists key, payload, log1, log2.
    split; [exact Htry |]. split; [exact Hrun |].
    split; [apply Hc; now left |].
    rewrite Hk; [reflexivity | now left].
  - destruct (proj2 (fallbacks_by_truthiness no_environ) empty_country_air [])
      as (key & payload & log1 & log2 & Htry & Hrun & Hc & Hk).
    exists key, payload, log1, log2.
    split; [exact Htry |]. split; [exact Hrun |].
    split; [apply Hc; now left |].
    rewrite Hk; [reflexivity | now left].
Defined.

(** ** Further properties of the handlers *)







Lemma forecast_day_conforms (i : Z) :
  match forecast_day i with
  | VDict d => conforms ForecastDay_fields d = true
  | _ => False
  end.
Proof. reflexivity. Qed.


(** X7. The key is not used: the payload and the log of both handlers are
    the same whatever key the request carries and whatever default key the
    environment gives. *)
Theorem api_key_is_ignored
  (environ1 environ2 : string -> option string) (k : option string)
  (log : list LogRecord) :
  (forall request : WeatherRequest.t,
     get_weather environ1 (with_api_key k request) log
     = get_weather environ2 request log) /\
  (forall request : AirQualityRequest.t,
     get_air_quality environ1 (air_with_api_key k request) log
     = get_air_quality environ2 request log).
Proof.
  split; intros request.
  - unfold get_weather. rewrite !handler_cases.
    unfold get_weather_try, bind.
    cbn [with_api_key WeatherRequest.city WeatherRequest.days
         WeatherRequest.country_code WeatherRequest.api_key].
    destruct (for_append (range (WeatherRequest.days request)) [] _)
      as [[forecast_days | e] log']; reflexivity.
  - rewrite !get_air_quality_returns. reflexivity.
Qed.

(** X8. In the forecast of a validated request every entry has a minimum
    temperature below its maximum, and both lie between 18 and 30
    degrees. *)
Theorem forecast_temperatures_bounded
  (environ : string -> option string) (request : WeatherRequest.t)
  (log : list LogRecord) :
  days_in_range request ->
  exists payload forecast log',
    get_weather environ request log = (Return payload, log') /\
    dict_get "forecast" payload = Some (VList forecast) /\
    (forall i, 0 <= i < WeatherRequest.days request ->
       exists entry lo hi,
         nth_error forecast (Z.to_nat i) = Some (VDict entry) /\
         dict_get "min_temp" entry = Some (VFloat lo) /\
         dict_get "max_temp" entry = Some (VFloat hi) /\
         (18 <=? lo)%float = true /\
         (lo <? hi)%float = true /\
         (hi <=? 30)%float = true).
Proof.
  intros [Hlo Hhi].
  exists (weather_payload request),
         (map forecast_day (range (WeatherRequest.days request))),
         (log ++ weather_log request).
  split; [apply get_weather_returns; exact Hhi |].
  split; [reflexivity |].
  intros i Hi. eexists. eexists. eexists.
  split; [rewrite (forecast_nth _ i Hi); unfold forecast_day; reflexivity |].
  split; [reflexivity |]. split; [reflexivity |].
  assert (0 <= i < 7) as Hi7 by lia. clear Hi.
  small_index i E; repeat split; vm_compute; reflexivity.
Qed.

Lemma forecast_temperatures_bounded_witness :
  exists payload forecast log',
    get_weather no_environ seoul_week [] = (Return payload, log') /\
    dict_get "forecast" payload = Some (VList forecast).
Proof.
  assert (days_in_range seoul_week) as Hr
    by (unfold days_in_range; simpl; lia).
  destruct (forecast_temperatures_bounded no_environ seoul_week [] Hr)
    as (payload & forecast & log' & Hrun & Hf & _).
  exists payload, forecast, log'. split; assumption.
Defined.



(** X11. The payload [get_weather] returns for a validated request is a
    [WeatherResponse]: it has every field of the model with a value of the
    declared type, and every forecast entry is a [ForecastDay]. *)
Theorem weather_payload_conforms
  (environ : string -> option string) (request : WeatherRequest.t)
  (log : list LogRecord) :
  days_in_range request ->
  exists payload log',
    get_weather environ request log = (Return payload, log') /\
    conforms WeatherResponse_fields payload = true /\
    dict_keys payload = map fst WeatherResponse_fields.
Proof.
  intros [_ Hhi].
  exists (weather_payload request), (log ++ weather_log request).
  split; [apply get_weather_returns; exact Hhi |].
  split; [| reflexivity].
  unfold conforms, weather_payload. cbn [forallb WeatherResponse_fields fst snd].
  cbn [dict_get String.eqb Ascii.eqb Bool.eqb andb has_type].
  rewrite !andb_true_r. 
  apply forallb_forall. intros item Hin.
  apply in_map_iff in Hin. destruct Hin as (i & <- & _).
  exact (forecast_day_conforms i).
Qed.

Lemma weather_payload_conforms_witness :
  exists payload log',
    get_weather no_environ seoul_two_days [] = (Return payload, log') /\
    conforms WeatherResponse_fields payload = true.
Proof.
  assert (days_in_range seoul_two_days) as Hr
    by (unfold days_in_range; simpl; lia).
  destruct (weather_payload_conforms no_environ seoul_two_days [] Hr)
    as (payload & log' & Hrun & Hc & _).
  exists payload, log'. split; assumption.
Defined.

(** ** Further properties of validation and dispatch *)

Lemma validate_field_rejects {str_as_int : string -> Z + error_type}
  (f : FieldInfo) (data : dict) :
  validate_field str_as_int f data <> ValidationError [].
Proof.
  unfold validate_field.
  destruct (dict_get (name f) data) as [v | ].
  - destruct (validate_value str_as_int (ann f) (ge f) (le f) v); discriminate.
  - destruct (default f); discriminate.
Qed.

Lemma ap_rejects_with_errors {A B} (rf : validated (A -> B)) (ra : validated A) :
  rf <> ValidationError [] -> ra <> ValidationError [] ->
  rf <*> ra <> ValidationError [].
Proof.
  destruct rf as [f | es], ra as [a | es']; simpl; intros Hf Ha H;
    try discriminate.
  - injection H as H. now subst es'.
  - injection H as H. rewrite app_nil_r in H. now subst es.
  - injection H as H. apply app_eq_nil in H. destruct H as [-> _].
    now apply Hf.
Qed.

Lemma weather_rejects_with_errors {str_as_int : string -> Z + error_type}
  (data : dict) :
  WeatherRequest.model_validate str_as_int data <> ValidationError [].
Proof.
  unfold WeatherRequest.model_validate.
  apply ap_rejects_with_errors;
    [| exact (validate_field_rejects WeatherRequest.api_key_field data)].
  apply ap_rejects_with_errors;
    [| exact (validate_field_rejects WeatherRequest.days_field data)].
  apply ap_rejects_with_errors;
    [| exact (validate_field_rejects WeatherRequest.country_code_field data)].
  apply ap_rejects_with_errors;
    [| exact (validate_field_rejects WeatherRequest.city_field data)].
  intros H. discriminate H.
Qed.

Lemma air_quality_rejects_with_errors {str_as_int : string -> Z + error_type}
  (data : dict) :
  AirQualityRequest.model_validate str_as_int data <> ValidationError [].
Proof.
  unfold AirQualityRequest.model_validate.
  apply ap_rejects_with_errors;
    [| exact (validate_field_rejects AirQualityRequest.api_key_field data)].
  apply ap_rejects_with_errors;
    [| exact (validate_field_rejects AirQualityRequest.country_code_field data)].
  apply ap_rejects_with_errors;
    [| exact (validate_field_rejects AirQualityRequest.city_field data)].
  intros H. discriminate H.
Qed.

Lemma field_errors_named {str_as_int : string -> Z + error_type}
  (f : FieldInfo) (fields : list FieldInfo) (data : dict) :
  In f fields ->
  Forall (fun e => In (loc e) (map name fields))
         (errors_of (validate_field str_as_int f data)).
Proof.
  intros Hin. eapply Forall_impl; [| apply validate_field_loc].
  simpl. intros e ->. now apply in_map.
Qed.

(** X1. The validated weather requests are exactly the requests whose
    [days] lies in 1..7: validation yields no other request, and each such
    request is the result of validating some payload.  Every air quality
    request is the result of validating some payload. *)
Theorem validated_requests (str_as_int : string -> Z + error_type) :
  (forall request : WeatherRequest.t,
     days_in_range request <->
     exists data, WeatherRequest.model_validate str_as_int data = Ok request) /\
  (forall request : AirQualityRequest.t,
     exists data, AirQualityRequest.model_validate str_as_int data = Ok request).
Proof.
  split.
  - intros request. split.
    + intros [Hlo Hhi]. destruct request as [c cc d k].
      exists [("city", VStr c); ("country_code", optional_value cc);
              ("days", VInt d); ("api_key", optional_value k)].
      simpl in Hlo, Hhi.
      unfold WeatherRequest.model_validate, validate_field. simpl.
      destruct (Z.ltb_spec d 1); [lia |].
      destruct (Z.ltb_spec 7 d); [lia |].
      destruct cc, k; reflexivity.
    + intros [data Hok]. exact (weather_ok_days data request Hok).
  - intros [c cc k].
    exists [("city", VStr c); ("country_code", optional_value cc);
            ("api_key", optional_value k)].
    destruct cc, k; reflexivity.
Qed.

Lemma validated_requests_witness :
  exists data, WeatherRequest.model_validate lax_str_as_int data = Ok seoul_week.
Proof.
  apply (proj1 (proj1 (validated_requests lax_str_as_int) seoul_week)).
  unfold days_in_range. simpl. lia.
Defined.

(** X2. A field the payload does not give takes the default of its
    declaration: [days] is 3, [country_code] and [api_key] are [None], in
    both models. *)
Theorem absent_fields_take_defaults
  (str_as_int : string -> Z + error_type) (data : dict) :
  (forall request,
     WeatherRequest.model_validate str_as_int data = Ok request ->
     (dict_get "days" data = None -> WeatherRequest.days request = 3) /\
     (dict_get "country_code" data = None ->
      WeatherRequest.country_code request = None) /\
     (dict_get "api_key" data = None ->
      WeatherRequest.api_key request = None)) /\
  (forall request,
     AirQualityRequest.model_validate str_as_int data = Ok request ->
     (dict_get "country_code" data = None ->
      AirQualityRequest.country_code request = None) /\
     (dict_get "api_key" data = None ->
      AirQualityRequest.api_key request = None)).
Proof.
  split.
  - intros request Hok. apply weather_ok_inv in Hok.
    destruct Hok as (_ & Hcc & Hd & Hk).
    unfold validate_field in Hcc, Hd, Hk. simpl in Hcc, Hd, Hk.
    split; [| split]; intros Habs.
    + rewrite Habs in Hd. now injection Hd.
    + rewrite Habs in Hcc. now injection Hcc.
    + rewrite Habs in Hk. now injection Hk.
  - intros request Hok. apply air_quality_ok_inv in Hok.
    destruct Hok as (_ & Hcc & Hk).
    unfold validate_field in Hcc, Hk. simpl in Hcc, Hk.
    split; intros Habs.
    + rewrite Habs in Hcc. now injection Hcc.
    + rewrite Habs in Hk. now injection Hk.
Qed.

Lemma absent_fields_take_defaults_witness :
  WeatherRequest.days (WeatherRequest.mk "Oslo" None 3 None) = 3 /\
  AirQualityRequest.api_key (AirQualityRequest.mk "Oslo" None None) = None.
Proof.
  split.
  - exact (proj1 (proj1 (absent_fields_take_defaults lax_str_as_int city_only)
                    (WeatherRequest.mk "Oslo" None 3 None) eq_refl) eq_refl).
  - exact (proj2 (proj2 (absent_fields_take_defaults lax_str_as_int city_only)
                    (AirQualityRequest.mk "Oslo" None None) eq_refl) eq_refl).
Defined.

(** X3. A rejection always says why: the [ValidationError] of either
    model carries at least one error, and every error names a field the
    model declares. *)
Theorem rejections_name_fields
  (str_as_int : string -> Z + error_type) (data : dict)
  (errors : list ErrorDetails) :
  (WeatherRequest.model_validate str_as_int data = ValidationError errors ->
   errors <> [] /\
   Forall (fun e => In (loc e) (map name WeatherRequest.model_fields)) errors) /\
  (AirQualityRequest.model_validate str_as_int data = ValidationError errors ->
   errors <> [] /\
   Forall (fun e => In (loc e) (map name AirQualityRequest.model_fields))
          errors).
Proof.
  split; intros Hrej.
  - split.
    + intros ->. exact (weather_rejects_with_errors data Hrej).
    + replace errors with (errors_of (WeatherRequest.model_validate str_as_int data))
        by now rewrite Hrej.
      rewrite weather_errors.
      repeat (apply Forall_app; split);
        apply field_errors_named; simpl; auto.
  - split.
    + intros ->. exact (air_quality_rejects_with_errors data Hrej).
    + replace errors with (errors_of (AirQualityRequest.model_validate str_as_int data))
        by now rewrite Hrej.
      rewrite air_quality_errors.
      repeat (apply Forall_app; split);
        apply field_errors_named; simpl; auto.
Qed.

Lemma rejections_name_fields_witness :
  [mkErr "city" missing] <> [] /\
  Forall (fun e => In (loc e) (map name WeatherRequest.model_fields))
         [mkErr "city" missing].
Proof.
  exact (proj1 (rejections_name_fields lax_str_as_int no_city
                  [mkErr "city" missing])
           eq_refl).
Defined.

(** X4. Validation followed by [get_weather], whatever the raw payload
    of the request: either validation rejects the payload, with at least
    one error, and there is no request to hand to the handler; or it yields
    a request, and on that request the handler returns a success payload,
    without [error] entry, whose forecast has as many entries as the
    validated [days], between 1 and 7, the log being extended by the two
    INFO records of the handler. *)
Theorem validate_then_get_weather
  (str_as_int : string -> Z + error_type)
  (environ : string -> option string) (data : dict) (log : list LogRecord) :
  (exists errors,
     WeatherRequest.model_validate str_as_int data = ValidationError errors /\
     errors <> []) \/
  (exists request payload forecast,
     WeatherRequest.model_validate str_as_int data = Ok request /\
     get_weather environ request log
     = (Return payload, log ++ weather_log request) /\
     dict_get "error" payload = None /\
     dict_get "city" payload = Some (VStr (WeatherRequest.city request)) /\
     dict_get "forecast" payload = Some (VList forecast) /\
     Z.of_nat (List.length forecast) = WeatherRequest.days request /\
     1 <= Z.of_nat (List.length forecast) <= 7).
Proof.
  destruct (WeatherRequest.model_validate str_as_int data)
    as [request | errors] eqn:Hv.
  - right. pose proof (weather_ok_days data request Hv) as [Hlo Hhi].
    exists request, (weather_payload request),
           (map forecast_day (range (WeatherRequest.days request))).
    split; [reflexivity |]. split.
    + exact (get_weather_returns environ request log Hhi).
    + assert (Z.of_nat (List.length
                (map forecast_day (range (WeatherRequest.days request))))
              = WeatherRequest.days request) as Hlen
        by (apply forecast_length; lia).
      repeat split; try exact Hlen; rewrite Hlen; assumption.
  - left. exists errors. split; [reflexivity |].
    intros ->. exact (weather_rejects_with_errors data Hv).
Qed.

(** X5. Validation followed by [get_air_quality], whatever the raw payload
    of the request: either validation rejects the payload, with at least
    one error; or it yields a request, and on that request the handler
    returns the payload with the validated city, the fixed readings and no
    [error] entry, the log being extended by its two INFO records. *)
Theorem validate_then_get_air_quality
  (str_as_int : string -> Z + error_type)
  (environ : string -> option string) (data : dict) (log : list LogRecord) :
  (exists errors,
     AirQualityRequest.model_validate str_as_int data = ValidationError errors /\
     errors <> []) \/
  (exists request payload,
     AirQualityRequest.model_validate str_as_int data = Ok request /\
     get_air_quality environ request log
     = (Return payload, log ++ air_quality_log request) /\
     dict_get "error" payload = None /\
     dict_get "city" payload = Some (VStr (AirQualityRequest.city request)) /\
     dict_without ["city"; "country"] payload = air_quality_constants).
Proof.
  destruct (AirQualityRequest.model_validate str_as_int data)
    as [request | errors] eqn:Hv.
  - right. eexists. eexists. split; [reflexivity |]. split.
    + exact (get_air_quality_returns environ request log).
    + repeat split.
  - left. exists errors. split; [reflexivity |].
    intros ->. exact (air_quality_rejects_with_errors data Hv).
Qed.

(** X10. [get_tool_definitions] returns the exporter's list under the key
    [tools] and writes no log.  Each definition has the entries [name],
    [description] and [parameters]; the properties it declares are, in
    order, the fields of the model the validator checks for that tool, each
    with the JSON type of the field's annotation, and every name in its
    [required] list is a declared property. *)
Theorem exported_properties_match_fields (log : list LogRecord) :
  get_tool_definitions tt log
  = (Return [("tools", VList generate_tool_definitions)], log) /\
  Forall (fun tool =>
            exists n fields props,
              tool_name tool = Some (VStr n) /\
              input_fields n = Some fields /\
              get_path tool "description" <> None /\
              match tool with
              | VDict d => dict_keys d = ["name"; "description"; "parameters"]
              | _ => False
              end /\
              tool_properties tool = Some (VDict props) /\
              dict_keys props = map name fields /\
              Forall (fun f =>
                        tool_property tool (name f) "type"
                        = Some (VStr (json_type (ann f)))) fields /\
              Forall (fun r => In r (dict_keys props)) (required_fields fields))
         generate_tool_definitions.
Proof.
  split; [reflexivity |].
  unfold generate_tool_definitions. repeat constructor.
  - exists "health", [], []. repeat split; try discriminate; constructor.
  - exists "get_weather", WeatherRequest.model_fields. eexists.
    split; [reflexivity |]. split; [reflexivity |].
    split; [discriminate |]. split; [reflexivity |].
    split; [reflexivity |]. split; [reflexivity |].
    split; repeat constructor.
  - exists "get_air_quality", AirQualityRequest.model_fields. eexists.
    split; [reflexivity |]. split; [reflexivity |].
    split; [discriminate |]. split; [reflexivity |].
    split; [reflexivity |]. split; [reflexivity |].
    split; repeat constructor.
Qed.
